(** * k8s-reporter: a shallow embedding of [reporter.go]

    The package under study is a thin accessor: [New] validates a
    functional-options configuration and binds a resource handle, [List] and
    [Get] query that handle and render every returned object with
    [yaml.Marshal].

    Conventions of the embedding.
    - A Go interface value or pointer is an [option]: [None] is [nil].
    - A Go call either returns or panics ([outcome]); a nil dereference and a
      method call on a nil interface panic.
    - The collaborators the package does not implement (the dynamic client,
      the YAML serializer, [context.Context], the list and get options) are
      parameters: interfaces are records of methods, opaque types are type
      variables. *)

From Stdlib Require Import String Ascii List Bool ZArith.
From Stdlib Require Strings.Byte.
Import ListNotations.
Local Open Scope string_scope.

(** ** Go runtime: nil-able values and panics *)

(** An interface value (or a pointer): [None] is [nil]. *)
Definition iface (A : Type) : Type := option A.

Inductive outcome (A : Type) : Type :=
| Returned (a : A)
| Panicked.
Arguments Returned {A} a.
Arguments Panicked {A}.

Definition bind {A B : Type} (c : outcome A) (k : A -> outcome B) : outcome B :=
  match c with
  | Returned a => k a
  | Panicked => Panicked
  end.

(** Dereference of a pointer, or method selection on an interface value. *)
Definition deref {A : Type} (p : iface A) : outcome A :=
  match p with
  | Some a => Returned a
  | None => Panicked
  end.

Declare Scope go_scope.
Delimit Scope go_scope with go.
Notation "x <- c ;; k" := (bind c (fun x => k))
  (at level 61, c at next level, right associativity) : go_scope.
Notation "' p <- c ;; k" := (bind c (fun p => k))
  (at level 61, p pattern, c at next level, right associativity) : go_scope.

(** ** Errors *)

Module metav1.
(** The reasons of an API status error the package's tests look at. *)
Inductive StatusReason : Set :=
| StatusReasonUnknown
| StatusReasonNotFound
| StatusReasonForbidden
| StatusReasonInternalError.
End metav1.

(** The dynamic values behind Go's [error] interface that reach this package:
    the text errors made by [errors.New] (and the serializer), and the API
    status errors of the backing store. *)
Inductive go_error : Type :=
| errorString (s : string)
| StatusError (reason : metav1.StatusReason) (message : string).

Definition error : Type := iface go_error.

Module apierrors.
(** [apierrors.IsNotFound], as the tests use it to classify [Get]'s error. *)
Definition IsNotFound (err : error) : bool :=
  match err with
  | Some (StatusError metav1.StatusReasonNotFound _) => true
  | _ => false
  end.
End apierrors.

(** ** Resource-type descriptors *)

Module schema.
Record GroupVersionResource : Type := mkGVR {
  Group : string;
  Version : string;
  Resource : string
}.
End schema.

(** ** Unstructured objects *)

Module unstructured.
(** What an [interface{}] inside an object can hold. [VOpaque] stands for
    the Go values no text format represents (functions, channels). *)
#[warnings="-register-all"]
Inductive value : Type :=
| VNil
| VBool (b : bool)
| VInt (z : Z)
| VString (s : string)
| VSlice (l : list value)
| VMap (m : list (string * value))
| VOpaque.

(** [map[string]interface{}], as an association list read at the first
    binding of a key. *)
Definition object : Type := list (string * value).

Record Unstructured : Type := mkUnstructured { Object : object }.

Record UnstructuredList : Type := mkUnstructuredList {
  ListObject : object;
  Items : list Unstructured
}.

Fixpoint lookup (m : object) (key : string) : option value :=
  match m with
  | [] => None
  | (k, v) :: rest => if String.eqb k key then Some v else lookup rest key
  end.

(** [NestedString]: the string at a path of map keys, [""] when the path
    is absent or does not end in a string. *)
Fixpoint NestedString (m : object) (fields : list string) : string :=
  match fields with
  | [] => ""
  | [f] => match lookup m f with
           | Some (VString s) => s
           | _ => ""
           end
  | f :: rest => match lookup m f with
                 | Some (VMap m') => NestedString m' rest
                 | _ => ""
                 end
  end.

Definition GetName (u : Unstructured) : string :=
  NestedString (Object u) ["metadata"; "name"].
Definition GetNamespace (u : Unstructured) : string :=
  NestedString (Object u) ["metadata"; "namespace"].
Definition GetAPIVersion (u : Unstructured) : string :=
  NestedString (Object u) ["apiVersion"].
End unstructured.

(** ** Substrings *)

(** [strings.Contains], the test behind gomega's [ContainSubstring]. *)
Fixpoint strings_Contains (s substr : string) : bool :=
  if String.prefix substr s then true
  else match s with
       | EmptyString => false
       | String _ s' => strings_Contains s' substr
       end.

(** The propositional reading of [strings_Contains]. *)
Definition Contains (s substr : string) : Prop :=
  exists pre post, s = pre ++ substr ++ post.

(** ** The package [reporter] *)

Section Reporter.

(** Opaque collaborator types: [context.Context], [metav1.ListOptions] and
    [metav1.GetOptions]. *)
Variables context_Context metav1_ListOptions metav1_GetOptions : Type.

(** [yaml.Marshal] of github.com/ghodss/yaml. *)
Variable yaml_Marshal : unstructured.object -> list Byte.byte * error.

(** The methods of [dynamic.ResourceInterface] the package calls. *)
Record ResourceInterface : Type := mkResourceInterface {
  ResourceInterface_List :
    metav1_ListOptions -> iface unstructured.UnstructuredList * error;
  ResourceInterface_Get :
    string -> metav1_GetOptions -> iface unstructured.Unstructured * error
}.

(** [dynamic.NamespaceableResourceInterface]. *)
Record NamespaceableResourceInterface : Type :=
  mkNamespaceableResourceInterface {
    Namespace : string -> iface ResourceInterface
  }.

(** [dynamic.Interface]. *)
Record dynamic_Interface : Type := mkDynamicInterface {
  Resource :
    schema.GroupVersionResource -> iface NamespaceableResourceInterface
}.

Record YamlReporter : Type := mkYamlReporter {
  dynamicCli : iface (iface dynamic_Interface);
  gvrSchema : iface schema.GroupVersionResource;
  resource : iface NamespaceableResourceInterface
}.

(** [YamlReporter{}]. *)
Definition YamlReporter_zero : YamlReporter := mkYamlReporter None None None.

(** The two implementations of the interface [Option]. *)
Inductive Option : Type :=
| dynCliOption (DynamicCli : iface dynamic_Interface)
| gvrOption (schema : schema.GroupVersionResource).

Definition dynCliOption_apply (DynamicCli : iface dynamic_Interface)
    (opts : YamlReporter) : YamlReporter :=
  mkYamlReporter (Some DynamicCli) (gvrSchema opts) (resource opts).

Definition gvrOption_apply (schema : schema.GroupVersionResource)
    (opts : YamlReporter) : YamlReporter :=
  mkYamlReporter (dynamicCli opts) (Some schema) (resource opts).

(** Dynamic dispatch of [opt.apply(instance)]. *)
Definition apply (opt : Option) (opts : YamlReporter) : YamlReporter :=
  match opt with
  | dynCliOption d => dynCliOption_apply d opts
  | gvrOption g => gvrOption_apply g opts
  end.

Definition WithDynamicClient (dynamicCli : iface dynamic_Interface)
    : iface Option :=
  Some (dynCliOption dynamicCli).

Definition WithGVRSchema (schema : schema.GroupVersionResource)
    : iface Option :=
  Some (gvrOption schema).

Definition NoDynamicCliSetError : go_error :=
  errorString
    "no dynamicCli set, use reporter.WithDynamicClient during initialization".

Definition NoGroupVersionResourceSetError : go_error :=
  errorString
    "no GroupVersionResource set, use reporter.WithGVRSchema during initialization".

Definition checkConfig (r : YamlReporter) : error :=
  match dynamicCli r with
  | None => Some NoDynamicCliSetError
  | Some _ =>
      match gvrSchema r with
      | None => Some NoGroupVersionResourceSetError
      | Some _ => None
      end
  end.

(** The loop [for _, opt := range opts { opt.apply(instance) }]; an element
    of [opts] that is the nil interface panics at the call. *)
Fixpoint applyOptions (opts : list (iface Option)) (instance : YamlReporter)
    : outcome YamlReporter :=
  match opts with
  | [] => Returned instance
  | opt :: rest =>
      (o <- deref opt ;;
       applyOptions rest (apply o instance))%go
  end.

Definition New (opts : list (iface Option)) : outcome (YamlReporter * error) :=
  (instance <- applyOptions opts YamlReporter_zero ;;
   match checkConfig instance with
   | Some err => Returned (YamlReporter_zero, Some err)
   | None =>
       cliIface <- deref (dynamicCli instance) ;;
       cli <- deref cliIface ;;
       gvr <- deref (gvrSchema instance) ;;
       Returned (mkYamlReporter (dynamicCli instance) (gvrSchema instance)
                   (Resource cli gvr), None)
   end)%go.

(** [string(out)]. *)
Definition string_of_bytes (out : list Byte.byte) : string :=
  string_of_list_byte out.

(** The body of the [for _, item := range unstructuredList.Items] loop of
    [List], started from the slice [resources] built so far. *)
Fixpoint marshalItems (items : list unstructured.Unstructured)
    (resources : list string) : iface (list string) * error :=
  match items with
  | [] => (Some resources, None)
  | item :: rest =>
      let (out, err) := yaml_Marshal (unstructured.Object item) in
      match err with
      | Some e => (None, Some e)
      | None => marshalItems rest (resources ++ [string_of_bytes out])
      end
  end.

(** [r.resource.Namespace(namespace)]. *)
Definition namespaced (r : YamlReporter) (namespace : string)
    : outcome ResourceInterface :=
  (nri <- deref (resource r) ;;
   deref (Namespace nri namespace))%go.

Definition List (r : YamlReporter) (ctx : context_Context)
    (namespace : string) (options : metav1_ListOptions)
    : outcome (iface (list string) * error) :=
  (ri <- namespaced r namespace ;;
   let (unstructuredList, err) := ResourceInterface_List ri options in
   match err with
   | Some e => Returned (None, Some e)
   | None =>
       ul <- deref unstructuredList ;;
       Returned (marshalItems (unstructured.Items ul) [])
   end)%go.

Definition Get (r : YamlReporter) (ctx : context_Context)
    (name namespace : string) (options : metav1_GetOptions)
    : outcome (string * error) :=
  (ri <- namespaced r namespace ;;
   let (unstructuredObj, err) := ResourceInterface_Get ri name options in
   match err with
   | Some e => Returned ("", Some e)
   | None =>
       obj <- deref unstructuredObj ;;
       let (out, err) := yaml_Marshal (unstructured.Object obj) in
       match err with
       | Some e => Returned ("", Some e)
       | None => Returned (string_of_bytes out, None)
       end
   end)%go.

End Reporter.

Arguments mkResourceInterface {_ _} _ _.
Arguments ResourceInterface_List {_ _} _ _.
Arguments ResourceInterface_Get {_ _} _ _ _.
Arguments mkNamespaceableResourceInterface {_ _} _.
Arguments Namespace {_ _} _ _.
Arguments mkDynamicInterface {_ _} _.
Arguments Resource {_ _} _ _.
Arguments mkYamlReporter {_ _} _ _ _.
Arguments dynamicCli {_ _} _.
Arguments gvrSchema {_ _} _.
Arguments resource {_ _} _.
Arguments YamlReporter_zero {_ _}.
Arguments dynCliOption {_ _} _.
Arguments gvrOption {_ _} _.
Arguments dynCliOption_apply {_ _} _ _.
Arguments gvrOption_apply {_ _} _ _.
Arguments apply {_ _} _ _.
Arguments WithDynamicClient {_ _} _.
Arguments WithGVRSchema {_ _} _.
Arguments checkConfig {_ _} _.
Arguments applyOptions {_ _} _ _.
Arguments New {_ _} _.
Arguments namespaced {_ _} _ _.
Arguments List {_ _ _} _ _ _ _ _.
Arguments Get {_ _ _} _ _ _ _ _ _.

(** ** Vocabulary of the specification *)

Section Vocabulary.

Context {metav1_ListOptions metav1_GetOptions : Type}.

Local Abbreviation Option := (Option metav1_ListOptions metav1_GetOptions).
Local Abbreviation YamlReporter :=
  (YamlReporter metav1_ListOptions metav1_GetOptions).

(** Which kind of option an element of the option sequence is. *)
Definition isDynCliOption (opt : iface Option) : bool :=
  match opt with
  | Some (dynCliOption _) => true
  | _ => false
  end.

Definition isGvrOption (opt : iface Option) : bool :=
  match opt with
  | Some (gvrOption _) => true
  | _ => false
  end.

(** A client option that carries the nil interface. *)
Definition carriesNilClient (opt : iface Option) : bool :=
  match opt with
  | Some (dynCliOption None) => true
  | _ => false
  end.

Definition isNil {A : Type} (x : iface A) : bool :=
  match x with
  | None => true
  | Some _ => false
  end.

(** A reporter is configured when both fields are set and the handle is
    the one its client gives for its descriptor. *)
Definition Configured (r : YamlReporter) : Prop :=
  exists cli gvr,
    dynamicCli r = Some (Some cli) /\
    gvrSchema r = Some gvr /\
    resource r = Resource cli gvr.

(** What the backing store answers to the query [List] makes, when the
    calls leading to it do not panic. *)
Definition storeList (r : YamlReporter) (namespace : string)
    (options : metav1_ListOptions)
    : outcome (iface unstructured.UnstructuredList * error) :=
  (ri <- namespaced r namespace ;;
   Returned (ResourceInterface_List ri options))%go.

(** What the backing store answers to the query [Get] makes. *)
Definition storeGet (r : YamlReporter) (name namespace : string)
    (options : metav1_GetOptions)
    : outcome (iface unstructured.Unstructured * error) :=
  (ri <- namespaced r namespace ;;
   Returned (ResourceInterface_Get ri name options))%go.

(** The YAML text block [List] and [Get] make of an instance, and whether
    the serializer accepts the instance. *)
Definition serialized (yaml_Marshal : unstructured.object -> list Byte.byte * error)
    (item : unstructured.Unstructured) : string :=
  string_of_bytes (fst (yaml_Marshal (unstructured.Object item))).

Definition serializes (yaml_Marshal : unstructured.object -> list Byte.byte * error)
    (item : unstructured.Unstructured) : Prop :=
  snd (yaml_Marshal (unstructured.Object item)) = None.

End Vocabulary.

(** ** Fixtures: the objects of [reporter_test.go], a store and a serializer
    small enough to run *)

Module fixtures.
Import unstructured.

Definition newUnstructured (apiVersion kind namespace name : string)
    : Unstructured :=
  mkUnstructured
    [ ("apiVersion", VString apiVersion);
      ("kind", VString kind);
      ("metadata", VMap [ ("namespace", VString namespace);
                          ("name", VString name) ]) ].

Definition nl : string := String (ascii_of_nat 10) "".

(** A block-style rendering of maps of strings; every other value is
    refused. It stands in for the serializer when a theorem is run. *)
Fixpoint render (indent : string) (v : value) {struct v} : option string :=
  match v with
  | VString s => Some (" " ++ s ++ nl)
  | VMap m =>
      let entries :=
        (fix entries (m : list (string * value)) : option string :=
           match m with
           | [] => Some ""
           | (k, x) :: rest =>
               match render ("  " ++ indent) x, entries rest with
               | Some a, Some b => Some (indent ++ k ++ ":" ++ a ++ b)
               | _, _ => None
               end
           end) in
      match entries m with
      | Some body => Some (nl ++ body)
      | None => None
      end
  | _ => None
  end.

Definition marshal (o : object) : list Byte.byte * error :=
  match render "" (VMap o) with
  | Some (String _ body) => (list_byte_of_string body, None)
  | _ => ([], Some (errorString "json: unsupported type"))
  end.

Definition gvr_eqb (a b : schema.GroupVersionResource) : bool :=
  String.eqb (schema.Group a) (schema.Group b)
  && String.eqb (schema.Version a) (schema.Version b)
  && String.eqb (schema.Resource a) (schema.Resource b).

Definition serves (gvr : schema.GroupVersionResource) (namespace : string)
    (entry : schema.GroupVersionResource * Unstructured) : bool :=
  gvr_eqb (fst entry) gvr
  && String.eqb (GetNamespace (snd entry)) namespace.

(** An in-memory store: every object is filed under a descriptor; [List]
    answers the objects of a descriptor and namespace in filing order,
    [Get] the first of them with the name asked for, or a not-found
    status error. *)
Definition store (objects : list (schema.GroupVersionResource * Unstructured))
    : dynamic_Interface unit unit :=
  mkDynamicInterface (fun gvr =>
    Some (mkNamespaceableResourceInterface (fun namespace =>
      Some (mkResourceInterface
        (fun _ =>
           (Some (mkUnstructuredList []
                    (map snd (filter (serves gvr namespace) objects))),
            None))
        (fun name _ =>
           match find (fun e => serves gvr namespace e
                                && String.eqb (GetName (snd e)) name)
                      objects with
           | Some e => (Some (snd e), None)
           | None =>
               (None,
                Some (StatusError metav1.StatusReasonNotFound
                        (schema.Resource gvr ++ " " ++ name ++ " not found")))
           end))))).

Definition pods : schema.GroupVersionResource :=
  schema.mkGVR "group" "version" "pods".
Definition deploys : schema.GroupVersionResource :=
  schema.mkGVR "group2" "version" "deploys".
Definition thekinds : schema.GroupVersionResource :=
  schema.mkGVR "group" "version" "thekinds".
Definition whatevers : schema.GroupVersionResource :=
  schema.mkGVR "group" "version" "whatevers".
Definition thekinds2 : schema.GroupVersionResource :=
  schema.mkGVR "group2" "version" "thekinds".

(** The six objects of the tests, filed as the fake client files them. *)
Definition objects : list (schema.GroupVersionResource * Unstructured) :=
  [ (pods, newUnstructured "group/version" "Pod" "ns-foo" "name-foo");
    (pods, newUnstructured "group/version" "Pod" "ns-foo" "name-foo2");
    (deploys, newUnstructured "group2/version" "Deploy" "ns-foo" "name2-foo");
    (thekinds, newUnstructured "group/version" "TheKind" "ns-foo" "name-bar");
    (whatevers, newUnstructured "group/version" "Whatever" "ns-foo" "name-baz");
    (thekinds2, newUnstructured "group2/version" "TheKind" "ns-foo" "name2-baz") ].

(** An object holding a value the serializer refuses. *)
Definition unserializable : Unstructured :=
  mkUnstructured
    [ ("apiVersion", VString "group/version");
      ("kind", VString "Pod");
      ("metadata", VMap [ ("namespace", VString "ns-foo");
                          ("name", VString "name-bad") ]);
      ("spec", VOpaque) ].

(** A store where the refused object sits between two pods. *)
Definition objectsWithRefused
    : list (schema.GroupVersionResource * Unstructured) :=
  [ (pods, newUnstructured "group/version" "Pod" "ns-foo" "name-foo");
    (pods, unserializable);
    (pods, newUnstructured "group/version" "Pod" "ns-foo" "name-foo2") ].

(** A store whose every query fails with the same access error. *)
Definition failing (e : go_error) : dynamic_Interface unit unit :=
  mkDynamicInterface (fun _ =>
    Some (mkNamespaceableResourceInterface (fun _ =>
      Some (mkResourceInterface
        (fun _ => (None, Some e))
        (fun _ _ => (None, Some e)))))).

(** The reporter [New] makes of a store and a descriptor. *)
Definition reporter (objects : list (schema.GroupVersionResource * Unstructured))
    (gvr : schema.GroupVersionResource) : YamlReporter unit unit :=
  mkYamlReporter (Some (Some (store objects))) (Some gvr)
    (Resource (store objects) gvr).

Definition reporterOptionsWithFakeClientAndGVR
    (schema : schema.GroupVersionResource)
    (objects : list (schema.GroupVersionResource * Unstructured))
    : list (iface (Option unit unit)) :=
  [ WithDynamicClient (Some (store objects)); WithGVRSchema schema ].
End fixtures.


(** * Properties *)

(** ** Substrings *)

Lemma append_assoc (a b c : string) : (a ++ b) ++ c = a ++ b ++ c.
Proof.
  induction a as [|x a IH]; simpl; [reflexivity | now rewrite IH].
Qed.

Lemma append_empty_r (a : string) : a ++ "" = a.
Proof.
  induction a as [|x a IH]; simpl; [reflexivity | now rewrite IH].
Qed.

Lemma prefix_split (p s : string) :
  String.prefix p s = true -> exists post, s = p ++ post.
Proof.
  revert s; induction p as [|x p IH]; intros s H.
  - exists s; reflexivity.
  - destruct s as [|y s]; simpl in H; [discriminate|].
    destruct (ascii_dec x y) as [->|]; [|discriminate].
    destruct (IH s H) as [post ->]. exists post; reflexivity.
Qed.

Lemma prefix_append (p post : string) : String.prefix p (p ++ post) = true.
Proof.
  induction p as [|x p IH]; simpl.
  - destruct post; reflexivity.
  - destruct (ascii_dec x x); [assumption | congruence].
Qed.

Lemma strings_Contains_sound (s substr : string) :
  strings_Contains s substr = true -> Contains s substr.
Proof.
  induction s as [|x s IH]; cbn [strings_Contains].
  - destruct (String.prefix substr "") eqn:P; [|discriminate].
    intros _. destruct (prefix_split _ _ P) as [post E].
    exists "", post; exact E.
  - destruct (String.prefix substr (String x s)) eqn:P.
    + intros _. destruct (prefix_split _ _ P) as [post E].
      exists "", post; exact E.
    + intros H. destruct (IH H) as (pre & post & ->).
      exists (String x pre), post; reflexivity.
Qed.

Lemma strings_Contains_complete (s substr : string) :
  Contains s substr -> strings_Contains s substr = true.
Proof.
  intros (pre & post & ->).
  induction pre as [|x pre IH].
  - change ("" ++ substr ++ post) with (substr ++ post).
    destruct (substr ++ post) eqn:E; cbn [strings_Contains];
      rewrite <- E, prefix_append; reflexivity.
  - cbn [strings_Contains append].
    destruct (String.prefix substr _); [reflexivity | exact IH].
Qed.

Lemma Contains_trans (s t u : string) :
  Contains s t -> Contains t u -> Contains s u.
Proof.
  intros (a & b & ->) (c & d & ->).
  exists (a ++ c), (d ++ b).
  now rewrite !append_assoc.
Qed.

Lemma strings_Contains_trans (s t u : string) :
  strings_Contains s t = true -> strings_Contains t u = true ->
  strings_Contains s u = true.
Proof.
  intros H1 H2. apply strings_Contains_complete.
  eapply Contains_trans; apply strings_Contains_sound; eassumption.
Qed.

(** ** Construction *)

Section Construction.

Context {metav1_ListOptions metav1_GetOptions : Type}.

Local Abbreviation Option := (Option metav1_ListOptions metav1_GetOptions).
Local Abbreviation YamlReporter :=
  (YamlReporter metav1_ListOptions metav1_GetOptions).

Implicit Types (opts : list (iface Option)) (instance r : YamlReporter).

Lemma sentinels_differ : NoDynamicCliSetError <> NoGroupVersionResourceSetError.
Proof. discriminate. Qed.

(** The loop runs the options one after the other: a sequence in two
    parts is the first part, then the second on what the first left. *)
Lemma applyOptions_app opts1 opts2 instance :
  applyOptions (opts1 ++ opts2) instance =
  bind (applyOptions opts1 instance) (applyOptions opts2).
Proof.
  revert instance; induction opts1 as [|[o|] opts1 IH]; intros instance;
    simpl; auto.
Qed.

(** No option touches the handle. *)
Lemma applyOptions_resource opts instance instance' :
  applyOptions opts instance = Returned instance' ->
  resource instance' = resource instance.
Proof.
  revert instance; induction opts as [|[o|] opts IH]; intros instance; simpl.
  - now intros [= ->].
  - intros H. rewrite (IH _ H). now destruct o.
  - discriminate.
Qed.

(** Options that are not client options leave the client field alone. *)
Lemma applyOptions_keeps_dynamicCli opts instance instance' :
  existsb isDynCliOption opts = false ->
  applyOptions opts instance = Returned instance' ->
  dynamicCli instance' = dynamicCli instance.
Proof.
  revert instance; induction opts as [|[o|] opts IH]; intros instance; simpl.
  - now intros _ [= ->].
  - destruct o; simpl; [discriminate|].
    intros E H. now rewrite (IH _ E H).
  - discriminate.
Qed.

Lemma applyOptions_keeps_gvrSchema opts instance instance' :
  existsb isGvrOption opts = false ->
  applyOptions opts instance = Returned instance' ->
  gvrSchema instance' = gvrSchema instance.
Proof.
  revert instance; induction opts as [|[o|] opts IH]; intros instance; simpl.
  - now intros _ [= ->].
  - destruct o; simpl; [|discriminate].
    intros E H. now rewrite (IH _ E H).
  - discriminate.
Qed.

(** Without a nil element the loop runs to its end. *)
Lemma applyOptions_returns opts instance :
  existsb isNil opts = false ->
  exists instance', applyOptions opts instance = Returned instance'.
Proof.
  revert instance; induction opts as [|[o|] opts IH]; intros instance; simpl.
  - eauto.
  - intros H. apply IH, H.
  - discriminate.
Qed.

(** A field that is set was set by one of the options (or before). *)
Lemma applyOptions_dynamicCli_from opts instance instance' d :
  applyOptions opts instance = Returned instance' ->
  dynamicCli instance' = Some d ->
  dynamicCli instance = Some d \/ In (WithDynamicClient d) opts.
Proof.
  revert instance; induction opts as [|[o|] opts IH]; intros instance; simpl.
  - intros [= ->]; auto.
  - intros H E. destruct (IH _ H E) as [E'|I]; [|auto].
    destruct o; simpl in E'; [injection E' as -> |]; auto.
  - discriminate.
Qed.

Lemma applyOptions_gvrSchema_from opts instance instance' g :
  applyOptions opts instance = Returned instance' ->
  gvrSchema instance' = Some g ->
  gvrSchema instance = Some g \/ In (WithGVRSchema g) opts.
Proof.
  revert instance; induction opts as [|[o|] opts IH]; intros instance; simpl.
  - intros [= ->]; auto.
  - intros H E. destruct (IH _ H E) as [E'|I]; [|auto].
    destruct o; simpl in E'; [|injection E' as -> ]; auto.
  - discriminate.
Qed.

(** A client option sets the client field, whatever follows. *)
Lemma applyOptions_sets_dynamicCli opts instance instance' :
  existsb isDynCliOption opts = true ->
  applyOptions opts instance = Returned instance' ->
  dynamicCli instance' <> None.
Proof.
  revert instance; induction opts as [|[o|] opts IH]; intros instance; simpl.
  - discriminate.
  - destruct (existsb isDynCliOption opts) eqn:E.
    + intros _ H. now apply (IH _ eq_refl H).
    + rewrite orb_false_r. destruct o; simpl; [|discriminate].
      intros _ H. rewrite (applyOptions_keeps_dynamicCli _ _ _ E H).
      discriminate.
  - discriminate.
Qed.

Lemma applyOptions_sets_gvrSchema opts instance instance' :
  existsb isGvrOption opts = true ->
  applyOptions opts instance = Returned instance' ->
  gvrSchema instance' <> None.
Proof.
  revert instance; induction opts as [|[o|] opts IH]; intros instance; simpl.
  - discriminate.
  - destruct (existsb isGvrOption opts) eqn:E.
    + intros _ H. now apply (IH _ eq_refl H).
    + rewrite orb_false_r. destruct o; simpl; [discriminate|].
      intros _ H. rewrite (applyOptions_keeps_gvrSchema _ _ _ E H).
      discriminate.
  - discriminate.
Qed.

Lemma carriesNilClient_In opts d :
  existsb carriesNilClient opts = false ->
  In (WithDynamicClient d) opts -> d <> None.
Proof.
  intros E I ->.
  assert (existsb carriesNilClient opts = true) as T
    by (apply existsb_exists; eexists; split; [exact I | reflexivity]).
  congruence.
Qed.

(** The field an option sets holds that option's value when no later
    option of the same kind follows. *)
Lemma applyOptions_last_dynamicCli pre post d instance instance' :
  existsb isDynCliOption post = false ->
  applyOptions (pre ++ WithDynamicClient d :: post) instance
    = Returned instance' ->
  dynamicCli instance' = Some d.
Proof.
  intros E. rewrite applyOptions_app.
  destruct (applyOptions pre instance) as [i1|]; simpl; [|discriminate].
  intros H. now rewrite (applyOptions_keeps_dynamicCli _ _ _ E H).
Qed.

Lemma applyOptions_last_gvrSchema pre post g instance instance' :
  existsb isGvrOption post = false ->
  applyOptions (pre ++ WithGVRSchema g :: post) instance
    = Returned instance' ->
  gvrSchema instance' = Some g.
Proof.
  intros E. rewrite applyOptions_app.
  destruct (applyOptions pre instance) as [i1|]; simpl; [|discriminate].
  intros H. now rewrite (applyOptions_keeps_gvrSchema _ _ _ E H).
Qed.

(** What [New] does once the loop has returned [instance]. *)
Lemma New_after_options opts instance :
  applyOptions opts YamlReporter_zero = Returned instance ->
  New opts =
  match dynamicCli instance, gvrSchema instance with
  | None, _ => Returned (YamlReporter_zero, Some NoDynamicCliSetError)
  | Some _, None =>
      Returned (YamlReporter_zero, Some NoGroupVersionResourceSetError)
  | Some None, Some _ => Panicked
  | Some (Some cli), Some gvr =>
      Returned (mkYamlReporter (Some (Some cli)) (Some gvr) (Resource cli gvr),
                None)
  end.
Proof.
  intros H. unfold New. rewrite H. simpl. unfold checkConfig.
  destruct (dynamicCli instance) as [[cli|]|], (gvrSchema instance) as [g|];
    reflexivity.
Qed.

(** A reporter that [New] returns is configured, or is the zero value
    that comes with an error. *)
Lemma New_returned_cases opts r (err : error) :
  New opts = Returned (r, err) ->
  match err with
  | None => Configured r
  | Some _ => r = YamlReporter_zero
  end.
Proof.
  destruct (applyOptions opts YamlReporter_zero) as [instance|] eqn:H;
    [|unfold New; rewrite H; discriminate].
  rewrite (New_after_options _ _ H).
  destruct (dynamicCli instance) as [[cli|]|], (gvrSchema instance) as [g|];
    intros [= <- <-]; try reflexivity.
  exists cli, g. repeat split.
Qed.

End Construction.

(** ** The claims on construction *)

(** C1. When the options hold no nil element, at least one client option and
    one descriptor option, and no client option carrying the nil interface,
    [New] returns without error a reporter whose client and descriptor are
    among those supplied and whose handle is that client's [Resource] at
    that descriptor. Whatever the options, a reporter that [New] returns is
    either configured in this sense (no error) or the zero value (an
    error): no partially configured instance is returned. *)
Theorem New_succeeds_fully_configured {metav1_ListOptions metav1_GetOptions : Type} :
  (forall opts : list (iface (Option metav1_ListOptions metav1_GetOptions)),
      existsb isNil opts = false ->
      existsb isDynCliOption opts = true ->
      existsb isGvrOption opts = true ->
      existsb carriesNilClient opts = false ->
      exists cli gvr,
        In (WithDynamicClient (Some cli)) opts /\
        In (WithGVRSchema gvr) opts /\
        New opts =
        Returned (mkYamlReporter (Some (Some cli)) (Some gvr) (Resource cli gvr),
                  None))
  /\
  (forall (opts : list (iface (Option metav1_ListOptions metav1_GetOptions)))
          r err,
      New opts = Returned (r, err) ->
      match err with
      | None => Configured r
      | Some _ => r = YamlReporter_zero
      end).
Proof.
  split.
  - intros opts Hnil Hcli Hgvr Hnilcli.
    destruct (applyOptions_returns opts YamlReporter_zero Hnil) as [instance H].
    pose proof (applyOptions_sets_dynamicCli _ _ _ Hcli H) as Dc.
    pose proof (applyOptions_sets_gvrSchema _ _ _ Hgvr H) as Dg.
    destruct (dynamicCli instance) as [d|] eqn:Ed; [|congruence].
    destruct (gvrSchema instance) as [g|] eqn:Eg; [|congruence].
    destruct (applyOptions_dynamicCli_from _ _ _ _ H Ed) as [Z|Id];
      [discriminate Z|].
    destruct (applyOptions_gvrSchema_from _ _ _ _ H Eg) as [Z|Ig];
      [discriminate Z|].
    pose proof (carriesNilClient_In _ _ Hnilcli Id) as Nd.
    destruct d as [cli|]; [|congruence].
    exists cli, g. repeat split; try assumption.
    rewrite (New_after_options _ _ H), Ed, Eg. reflexivity.
  - intros opts r err. apply New_returned_cases.
Qed.

Lemma New_succeeds_fully_configured_witness :
  exists cli gvr,
    In (WithDynamicClient (Some cli))
       (fixtures.reporterOptionsWithFakeClientAndGVR fixtures.pods
          fixtures.objects) /\
    In (WithGVRSchema gvr)
       (fixtures.reporterOptionsWithFakeClientAndGVR fixtures.pods
          fixtures.objects) /\
    New (fixtures.reporterOptionsWithFakeClientAndGVR fixtures.pods
           fixtures.objects) =
    Returned (mkYamlReporter (Some (Some cli)) (Some gvr) (Resource cli gvr),
              None).
Proof.
  apply (proj1 New_succeeds_fully_configured
           (fixtures.reporterOptionsWithFakeClientAndGVR fixtures.pods
              fixtures.objects));
    reflexivity.
Defined.

(** C2. Once the options are applied: if the client field is unset, [New]
    fails with [NoDynamicCliSetError], whether or not the descriptor field
    is set; if the client field is set and the descriptor field unset, it
    fails with [NoGroupVersionResourceSetError]. In terms of the options
    (none of them nil): with no client option the error is the first, with
    a client option and no descriptor option it is the second. The two
    errors differ, so exactly one of them is returned when both fields are
    missing: the client one. *)
Theorem New_missing_field_errors {metav1_ListOptions metav1_GetOptions : Type} :
  (forall (opts : list (iface (Option metav1_ListOptions metav1_GetOptions)))
          instance,
      applyOptions opts YamlReporter_zero = Returned instance ->
      (dynamicCli instance = None ->
       New opts = Returned (YamlReporter_zero, Some NoDynamicCliSetError)) /\
      (dynamicCli instance <> None -> gvrSchema instance = None ->
       New opts =
       Returned (YamlReporter_zero, Some NoGroupVersionResourceSetError)))
  /\
  (forall opts : list (iface (Option metav1_ListOptions metav1_GetOptions)),
      existsb isNil opts = false ->
      (existsb isDynCliOption opts = false ->
       New opts = Returned (YamlReporter_zero, Some NoDynamicCliSetError)) /\
      (existsb isDynCliOption opts = true ->
       existsb isGvrOption opts = false ->
       New opts =
       Returned (YamlReporter_zero, Some NoGroupVersionResourceSetError)))
  /\
  NoDynamicCliSetError <> NoGroupVersionResourceSetError.
Proof.
  assert (forall (opts : list (iface (Option metav1_ListOptions metav1_GetOptions)))
                 instance,
      applyOptions opts YamlReporter_zero = Returned instance ->
      (dynamicCli instance = None ->
       New opts = Returned (YamlReporter_zero, Some NoDynamicCliSetError)) /\
      (dynamicCli instance <> None -> gvrSchema instance = None ->
       New opts =
       Returned (YamlReporter_zero, Some NoGroupVersionResourceSetError)))
    as fields.
  { intros opts instance H. rewrite (New_after_options _ _ H). split.
    - intros ->. reflexivity.
    - intros Dc ->.
      destruct (dynamicCli instance) as [[cli|]|];
        [reflexivity | reflexivity | congruence]. }
  split; [exact fields | split; [| discriminate]].
  intros opts Hnil.
  destruct (applyOptions_returns opts YamlReporter_zero Hnil) as [instance H].
  destruct (fields opts instance H) as [F1 F2]. split.
  - intros E. apply F1.
    now rewrite (applyOptions_keeps_dynamicCli _ _ _ E H).
  - intros Ec Eg. apply F2.
    + exact (applyOptions_sets_dynamicCli _ _ _ Ec H).
    + now rewrite (applyOptions_keeps_gvrSchema _ _ _ Eg H).
Qed.

Lemma New_missing_field_errors_witness :
  New [WithGVRSchema fixtures.pods]
    = Returned (@YamlReporter_zero unit unit, Some NoDynamicCliSetError) /\
  New []
    = Returned (@YamlReporter_zero unit unit, Some NoDynamicCliSetError) /\
  New [WithDynamicClient (Some (fixtures.store fixtures.objects))]
    = Returned (YamlReporter_zero, Some NoGroupVersionResourceSetError).
Proof.
  pose proof (@New_missing_field_errors unit unit) as [_ [byOptions _]].
  split; [|split].
  - apply (byOptions [WithGVRSchema fixtures.pods]); reflexivity.
  - apply (byOptions []); reflexivity.
  - apply (byOptions [WithDynamicClient (Some (fixtures.store fixtures.objects))]);
      reflexivity.
Defined.

(** C3. Whenever [New] returns an error, the reporter returned with it is
    the zero value [YamlReporter{}]: none of its three fields is set,
    whatever the options had put in the instance under construction. *)
Theorem New_error_returns_zero_value {metav1_ListOptions metav1_GetOptions : Type}
    (opts : list (iface (Option metav1_ListOptions metav1_GetOptions)))
    (r : YamlReporter metav1_ListOptions metav1_GetOptions) (e : go_error) :
  New opts = Returned (r, Some e) ->
  r = YamlReporter_zero /\
  dynamicCli r = None /\ gvrSchema r = None /\ resource r = None.
Proof.
  intros H.
  pose proof (New_returned_cases opts r (Some e) H) as Z.
  simpl in Z. subst r. repeat split.
Qed.

Lemma New_error_returns_zero_value_witness :
  @YamlReporter_zero unit unit = YamlReporter_zero /\
  dynamicCli (@YamlReporter_zero unit unit) = None /\
  gvrSchema (@YamlReporter_zero unit unit) = None /\
  resource (@YamlReporter_zero unit unit) = None.
Proof.
  apply (New_error_returns_zero_value
           [WithDynamicClient (Some (fixtures.store fixtures.objects))]
           YamlReporter_zero NoGroupVersionResourceSetError).
  reflexivity.
Defined.

(** C10. The loop applies the options in the order supplied: a sequence in
    two parts is the first part followed by the second, and one option
    overwrites its field and nothing else. Hence, in a sequence without nil
    elements, each field ends up holding the value of the last option of its
    kind, and [New] returns the reporter built from those last values:
    - with [d] the last client and [g] the last descriptor, the instance
      holds [d] and [g], and [New] returns, with no error, the reporter of
      client [d], descriptor [g] and handle [Resource cli g] (it panics if
      [d] is the nil interface);
    - with client options only, the instance holds the last client and
      [New] returns the descriptor error;
    - with descriptor options only, the instance holds the last descriptor
      and [New] returns the client error. *)
Theorem New_last_option_of_each_kind_wins {metav1_ListOptions metav1_GetOptions : Type} :
  (forall (opts1 opts2 : list (iface (Option metav1_ListOptions metav1_GetOptions)))
          instance,
      applyOptions (opts1 ++ opts2)%list instance =
      bind (applyOptions opts1 instance) (applyOptions opts2))
  /\
  (forall (instance : YamlReporter metav1_ListOptions metav1_GetOptions) d g,
      applyOptions [WithDynamicClient d] instance =
        Returned (mkYamlReporter (Some d) (gvrSchema instance) (resource instance))
      /\
      applyOptions [WithGVRSchema g] instance =
        Returned (mkYamlReporter (dynamicCli instance) (Some g) (resource instance)))
  /\
  (forall (pre1 post1 pre2 post2 :
             list (iface (Option metav1_ListOptions metav1_GetOptions))) d g,
      existsb isNil (pre1 ++ WithDynamicClient d :: post1)%list = false ->
      existsb isDynCliOption post1 = false ->
      existsb isGvrOption post2 = false ->
      (pre1 ++ WithDynamicClient d :: post1 = pre2 ++ WithGVRSchema g :: post2)%list ->
      applyOptions (pre1 ++ WithDynamicClient d :: post1)%list YamlReporter_zero =
        Returned (mkYamlReporter (Some d) (Some g) None)
      /\
      New (pre1 ++ WithDynamicClient d :: post1)%list =
        match d with
        | Some cli =>
            Returned (mkYamlReporter (Some (Some cli)) (Some g) (Resource cli g),
                      None)
        | None => Panicked
        end
      /\
      New (pre1 ++ WithDynamicClient d :: post1)%list =
      New [WithDynamicClient d; WithGVRSchema g])
  /\
  (forall (pre post : list (iface (Option metav1_ListOptions metav1_GetOptions))) d,
      existsb isNil (pre ++ WithDynamicClient d :: post)%list = false ->
      existsb isDynCliOption post = false ->
      existsb isGvrOption (pre ++ WithDynamicClient d :: post)%list = false ->
      applyOptions (pre ++ WithDynamicClient d :: post)%list YamlReporter_zero =
        Returned (mkYamlReporter (Some d) None None)
      /\
      New (pre ++ WithDynamicClient d :: post)%list =
        Returned (YamlReporter_zero, Some NoGroupVersionResourceSetError))
  /\
  (forall (pre post : list (iface (Option metav1_ListOptions metav1_GetOptions))) g,
      existsb isNil (pre ++ WithGVRSchema g :: post)%list = false ->
      existsb isGvrOption post = false ->
      existsb isDynCliOption (pre ++ WithGVRSchema g :: post)%list = false ->
      applyOptions (pre ++ WithGVRSchema g :: post)%list YamlReporter_zero =
        Returned (mkYamlReporter None (Some g) None)
      /\
      New (pre ++ WithGVRSchema g :: post)%list =
        Returned (YamlReporter_zero, Some NoDynamicCliSetError)).
Proof.
  split; [exact applyOptions_app | split; [intros; split; reflexivity|]].
  split; [|split].
  - intros pre1 post1 pre2 post2 d g Hnil Hc Hg E.
    destruct (applyOptions_returns _ YamlReporter_zero Hnil) as [instance H].
    pose proof (applyOptions_last_dynamicCli _ _ _ _ _ Hc H) as Ed.
    pose proof H as H'. rewrite E in H'.
    pose proof (applyOptions_last_gvrSchema _ _ _ _ _ Hg H') as Eg.
    pose proof (applyOptions_resource _ _ _ H) as Er. simpl in Er.
    assert (instance = mkYamlReporter (Some d) (Some g) None) as ->
      by (destruct instance; simpl in *; congruence).
    split; [exact H|].
    rewrite (New_after_options _ _ H). split; destruct d; reflexivity.
  - intros pre post d Hnil Hc Hg.
    destruct (applyOptions_returns _ YamlReporter_zero Hnil) as [instance H].
    pose proof (applyOptions_last_dynamicCli _ _ _ _ _ Hc H) as Ed.
    pose proof (applyOptions_keeps_gvrSchema _ _ _ Hg H) as Eg. simpl in Eg.
    pose proof (applyOptions_resource _ _ _ H) as Er. simpl in Er.
    assert (instance = mkYamlReporter (Some d) None None) as ->
      by (destruct instance; simpl in *; congruence).
    split; [exact H|].
    rewrite (New_after_options _ _ H). destruct d; reflexivity.
  - intros pre post g Hnil Hg Hc.
    destruct (applyOptions_returns _ YamlReporter_zero Hnil) as [instance H].
    pose proof (applyOptions_last_gvrSchema _ _ _ _ _ Hg H) as Eg.
    pose proof (applyOptions_keeps_dynamicCli _ _ _ Hc H) as Ed. simpl in Ed.
    pose proof (applyOptions_resource _ _ _ H) as Er. simpl in Er.
    assert (instance = mkYamlReporter None (Some g) None) as ->
      by (destruct instance; simpl in *; congruence).
    split; [exact H|].
    rewrite (New_after_options _ _ H). reflexivity.
Qed.

Lemma New_last_option_of_each_kind_wins_witness :
  New [ WithDynamicClient (Some (fixtures.store []));
        WithGVRSchema fixtures.deploys;
        WithDynamicClient (Some (fixtures.store fixtures.objects));
        WithGVRSchema fixtures.pods ]
  = Returned (fixtures.reporter fixtures.objects fixtures.pods, None)
  /\
  New [ WithDynamicClient (Some (fixtures.store []));
        WithDynamicClient (Some (fixtures.store fixtures.objects)) ]
  = Returned (YamlReporter_zero, Some NoGroupVersionResourceSetError)
  /\
  New [ @WithGVRSchema unit unit fixtures.deploys; WithGVRSchema fixtures.pods ]
  = Returned (YamlReporter_zero, Some NoDynamicCliSetError).
Proof.
  pose proof (@New_last_option_of_each_kind_wins unit unit)
    as (_ & _ & both & clientsOnly & descriptorsOnly).
  split; [|split].
  - apply (proj1 (proj2
             (both
                [ WithDynamicClient (Some (fixtures.store []));
                  WithGVRSchema fixtures.deploys ]
                [ WithGVRSchema fixtures.pods ]
                [ WithDynamicClient (Some (fixtures.store []));
                  WithGVRSchema fixtures.deploys;
                  WithDynamicClient (Some (fixtures.store fixtures.objects)) ]
                []
                (Some (fixtures.store fixtures.objects)) fixtures.pods
                eq_refl eq_refl eq_refl eq_refl))).
  - apply (proj2
             (clientsOnly
                [ WithDynamicClient (Some (fixtures.store [])) ] []
                (Some (fixtures.store fixtures.objects))
                eq_refl eq_refl eq_refl)).
  - apply (proj2
             (descriptorsOnly
                [ WithGVRSchema fixtures.deploys ] [] fixtures.pods
                eq_refl eq_refl eq_refl)).
Defined.

(** ** Read operations *)

Section ReadOperations.

Context {context_Context metav1_ListOptions metav1_GetOptions : Type}.
Variable yaml_Marshal : unstructured.object -> list Byte.byte * error.

Local Abbreviation YamlReporter :=
  (YamlReporter metav1_ListOptions metav1_GetOptions).

Implicit Types (r : YamlReporter) (ctx : context_Context)
  (items pre post : list unstructured.Unstructured)
  (resources : list string).

(** When every item serializes, the loop appends one block per item, in
    order, to the blocks it started from. *)
Lemma marshalItems_all items resources :
  Forall (serializes yaml_Marshal) items ->
  marshalItems yaml_Marshal items resources =
  (Some (resources ++ map (serialized yaml_Marshal) items)%list, None).
Proof.
  intros F; revert resources.
  induction F as [|item items S _ IH]; intros resources; simpl.
  - now rewrite app_nil_r.
  - unfold serializes in S. unfold serialized at 1.
    destruct (yaml_Marshal (unstructured.Object item)) as [out err].
    simpl in S; subst err. simpl.
    now rewrite IH, <- app_assoc.
Qed.

(** The loop stops at the first item the serializer refuses, with that
    item's error and a nil slice, whatever it had built and whatever
    follows. *)
Lemma marshalItems_first_refused pre item post resources out e :
  Forall (serializes yaml_Marshal) pre ->
  yaml_Marshal (unstructured.Object item) = (out, Some e) ->
  marshalItems yaml_Marshal (pre ++ item :: post)%list resources
  = (None, Some e).
Proof.
  intros F M; revert resources.
  induction F as [|x pre S _ IH]; intros resources; simpl.
  - now rewrite M.
  - unfold serializes in S.
    destruct (yaml_Marshal (unstructured.Object x)) as [o err].
    simpl in S; subst err. apply IH.
Qed.

(** [List] and [Get] in terms of the store's answer. *)
Lemma List_of_store r ctx namespace options resp :
  storeList r namespace options = Returned resp ->
  List yaml_Marshal r ctx namespace options =
  match snd resp, fst resp with
  | Some e, _ => Returned (None, Some e)
  | None, None => Panicked
  | None, Some ul =>
      Returned (marshalItems yaml_Marshal (unstructured.Items ul) [])
  end.
Proof.
  unfold storeList, List.
  destruct (namespaced r namespace) as [ri|]; simpl; [|discriminate].
  intros [= <-].
  destruct (ResourceInterface_List ri options) as [[ul|] [e|]]; reflexivity.
Qed.

Lemma Get_of_store r ctx name namespace options resp :
  storeGet r name namespace options = Returned resp ->
  Get yaml_Marshal r ctx name namespace options =
  match snd resp, fst resp with
  | Some e, _ => Returned ("", Some e)
  | None, None => Panicked
  | None, Some obj =>
      match snd (yaml_Marshal (unstructured.Object obj)) with
      | Some e => Returned ("", Some e)
      | None =>
          Returned (string_of_bytes (fst (yaml_Marshal (unstructured.Object obj))),
                    None)
      end
  end.
Proof.
  unfold storeGet, Get.
  destruct (namespaced r namespace) as [ri|]; simpl; [|discriminate].
  intros [= <-].
  destruct (ResourceInterface_Get ri name options) as [[obj|] [e|]];
    try reflexivity.
  simpl. destruct (yaml_Marshal (unstructured.Object obj)) as [out [e|]];
    reflexivity.
Qed.

(** An error of the loop comes with a nil slice. *)
Lemma marshalItems_error_nil items resources blocks e :
  marshalItems yaml_Marshal items resources = (blocks, Some e) ->
  blocks = None.
Proof.
  revert resources; induction items as [|item items IH]; intros resources;
    simpl.
  - discriminate.
  - destruct (yaml_Marshal (unstructured.Object item)) as [out [e'|]].
    + now intros [= <- _].
    + apply IH.
Qed.

(** A call that returns has had an answer from the store. *)
Lemma List_returned_store r ctx namespace options res :
  List yaml_Marshal r ctx namespace options = Returned res ->
  exists resp, storeList r namespace options = Returned resp.
Proof.
  unfold storeList, List.
  destruct (namespaced r namespace) as [ri|]; simpl; [eauto | discriminate].
Qed.

Lemma Get_returned_store r ctx name namespace options res :
  Get yaml_Marshal r ctx name namespace options = Returned res ->
  exists resp, storeGet r name namespace options = Returned resp.
Proof.
  unfold storeGet, Get.
  destruct (namespaced r namespace) as [ri|]; simpl; [eauto | discriminate].
Qed.

End ReadOperations.

(** Runs of the fixtures: the configurations of the tests. *)
Example fixtures_New :
  New (fixtures.reporterOptionsWithFakeClientAndGVR fixtures.pods fixtures.objects)
  = Returned (fixtures.reporter fixtures.objects fixtures.pods, None).
Proof. reflexivity. Qed.

(** A client option carrying the nil interface passes [checkConfig] (the
    pointer to it is set) and panics at the call of [Resource]; a nil element
    of the options panics in the loop. *)
Example New_nil_client_panics :
  New [ @WithDynamicClient unit unit None; WithGVRSchema fixtures.pods ]
  = Panicked.
Proof. reflexivity. Qed.

Example New_nil_option_panics :
  New [ None; @WithGVRSchema unit unit fixtures.pods ] = Panicked.
Proof. reflexivity. Qed.

(** The zero value has no handle: a read on it panics. *)
Example List_on_zero_value_panics :
  List fixtures.marshal (@YamlReporter_zero unit unit) tt "ns-foo" tt = Panicked.
Proof. reflexivity. Qed.

Example fixtures_List_two_pods :
  exists a b,
    List fixtures.marshal (fixtures.reporter fixtures.objects fixtures.pods)
      tt "ns-foo" tt = Returned (Some [a; b], None).
Proof. eexists; eexists; vm_compute; reflexivity. Qed.

(** ** The claims on [List] *)

(** C4. When the store answers [List]'s query with a list and no error, and
    the serializer accepts every item, [List] returns without error the
    blocks of the items: one block per item, each the serialization of that
    item's object, at the position the store gave the item. *)
Theorem List_one_block_per_instance_in_store_order
    {context_Context metav1_ListOptions metav1_GetOptions : Type}
    (yaml_Marshal : unstructured.object -> list Byte.byte * error)
    (r : YamlReporter metav1_ListOptions metav1_GetOptions)
    (ctx : context_Context) (namespace : string)
    (options : metav1_ListOptions) (ul : unstructured.UnstructuredList) :
  storeList r namespace options = Returned (Some ul, None) ->
  Forall (serializes yaml_Marshal) (unstructured.Items ul) ->
  exists blocks,
    List yaml_Marshal r ctx namespace options = Returned (Some blocks, None) /\
    blocks = map (serialized yaml_Marshal) (unstructured.Items ul) /\
    List.length blocks = List.length (unstructured.Items ul) /\
    forall i,
      nth_error blocks i =
      option_map (serialized yaml_Marshal) (nth_error (unstructured.Items ul) i).
Proof.
  intros S F.
  exists (map (serialized yaml_Marshal) (unstructured.Items ul)).
  rewrite (List_of_store yaml_Marshal r ctx _ _ _ S). simpl.
  rewrite (marshalItems_all _ _ _ F). simpl.
  split; [reflexivity | split; [reflexivity | split]].
  - apply length_map.
  - intros i. apply nth_error_map.
Qed.

Lemma List_one_block_per_instance_in_store_order_witness :
  exists blocks,
    List fixtures.marshal (fixtures.reporter fixtures.objects fixtures.pods)
      tt "ns-foo" tt = Returned (Some blocks, None) /\
    blocks =
      map (serialized fixtures.marshal)
        [ fixtures.newUnstructured "group/version" "Pod" "ns-foo" "name-foo";
          fixtures.newUnstructured "group/version" "Pod" "ns-foo" "name-foo2" ] /\
    List.length blocks = 2 /\
    forall i,
      nth_error blocks i =
      option_map (serialized fixtures.marshal)
        (nth_error
           [ fixtures.newUnstructured "group/version" "Pod" "ns-foo" "name-foo";
             fixtures.newUnstructured "group/version" "Pod" "ns-foo" "name-foo2" ]
           i).
Proof.
  apply (List_one_block_per_instance_in_store_order fixtures.marshal
           (fixtures.reporter fixtures.objects fixtures.pods) tt "ns-foo" tt
           (unstructured.mkUnstructuredList []
              [ fixtures.newUnstructured "group/version" "Pod" "ns-foo" "name-foo";
                fixtures.newUnstructured "group/version" "Pod" "ns-foo"
                  "name-foo2" ])).
  - reflexivity.
  - repeat constructor.
Defined.

(** C5. When the store answers [List]'s query with no instance and no
    error, [List] returns the empty (non-nil) sequence and no error. *)
Theorem List_no_instance_is_not_an_error
    {context_Context metav1_ListOptions metav1_GetOptions : Type}
    (yaml_Marshal : unstructured.object -> list Byte.byte * error)
    (r : YamlReporter metav1_ListOptions metav1_GetOptions)
    (ctx : context_Context) (namespace : string)
    (options : metav1_ListOptions) (ul : unstructured.UnstructuredList) :
  storeList r namespace options = Returned (Some ul, None) ->
  unstructured.Items ul = [] ->
  List yaml_Marshal r ctx namespace options = Returned (Some [], None).
Proof.
  intros S E.
  rewrite (List_of_store yaml_Marshal r ctx _ _ _ S). simpl.
  rewrite E. reflexivity.
Qed.

Lemma List_no_instance_is_not_an_error_witness :
  List fixtures.marshal (fixtures.reporter fixtures.objects fixtures.pods)
    tt "ns-foo-other" tt = Returned (Some [], None).
Proof.
  apply (List_no_instance_is_not_an_error fixtures.marshal
           (fixtures.reporter fixtures.objects fixtures.pods) tt
           "ns-foo-other" tt (unstructured.mkUnstructuredList [] []));
    reflexivity.
Defined.

(** C6. If the store answers [List]'s query with an error, [List] returns
    that very error and a nil sequence. If the store answers with a list and
    the serializer refuses one of its items, [List] returns the error of the
    first refused item and a nil sequence, whatever blocks it had built.
    Whenever [List] returns an error at all, the sequence with it is nil. *)
Theorem List_failure_aborts_without_partial_result
    {context_Context metav1_ListOptions metav1_GetOptions : Type}
    (yaml_Marshal : unstructured.object -> list Byte.byte * error)
    (r : YamlReporter metav1_ListOptions metav1_GetOptions)
    (ctx : context_Context) (namespace : string)
    (options : metav1_ListOptions) :
  (forall ul e,
      storeList r namespace options = Returned (ul, Some e) ->
      List yaml_Marshal r ctx namespace options = Returned (None, Some e))
  /\
  (forall ul pre item post out e,
      storeList r namespace options = Returned (Some ul, None) ->
      unstructured.Items ul = (pre ++ item :: post)%list ->
      Forall (serializes yaml_Marshal) pre ->
      yaml_Marshal (unstructured.Object item) = (out, Some e) ->
      List yaml_Marshal r ctx namespace options = Returned (None, Some e))
  /\
  (forall blocks e,
      List yaml_Marshal r ctx namespace options = Returned (blocks, Some e) ->
      blocks = None).
Proof.
  split; [|split].
  - intros ul e S. now rewrite (List_of_store yaml_Marshal r ctx _ _ _ S).
  - intros ul pre item post out e S E F M.
    rewrite (List_of_store yaml_Marshal r ctx _ _ _ S). simpl. rewrite E.
    now rewrite (marshalItems_first_refused yaml_Marshal _ _ _ _ _ _ F M).
  - intros blocks e H.
    destruct (List_returned_store yaml_Marshal _ _ _ _ _ H) as [resp S].
    rewrite (List_of_store yaml_Marshal r ctx _ _ _ S) in H.
    destruct resp as [[ul|] [e'|]]; simpl in H; try discriminate H;
      try (now injection H as <- _).
    injection H as H. now apply marshalItems_error_nil in H.
Qed.

Lemma List_failure_aborts_without_partial_result_witness :
  List fixtures.marshal
    (mkYamlReporter
       (Some (Some (fixtures.failing (StatusError metav1.StatusReasonForbidden
                                        "pods is forbidden"))))
       (Some fixtures.pods)
       (Resource (fixtures.failing (StatusError metav1.StatusReasonForbidden
                                      "pods is forbidden")) fixtures.pods))
    tt "ns-foo" tt
  = Returned (None, Some (StatusError metav1.StatusReasonForbidden
                            "pods is forbidden"))
  /\
  List fixtures.marshal
    (fixtures.reporter fixtures.objectsWithRefused fixtures.pods) tt "ns-foo" tt
  = Returned (None, Some (errorString "json: unsupported type")).
Proof.
  split.
  - apply (proj1 (List_failure_aborts_without_partial_result fixtures.marshal
                    _ tt "ns-foo" tt) None).
    reflexivity.
  - apply (proj1 (proj2 (List_failure_aborts_without_partial_result
                           fixtures.marshal
                           (fixtures.reporter fixtures.objectsWithRefused
                              fixtures.pods) tt "ns-foo" tt))
             (unstructured.mkUnstructuredList []
                (map snd fixtures.objectsWithRefused))
             [ fixtures.newUnstructured "group/version" "Pod" "ns-foo" "name-foo" ]
             fixtures.unserializable
             [ fixtures.newUnstructured "group/version" "Pod" "ns-foo" "name-foo2" ]
             []).
    + reflexivity.
    + reflexivity.
    + repeat constructor.
    + reflexivity.
Defined.

(** ** The claims on [Get] *)




(** C8. Whenever [Get] returns an error, the string with it is empty. An
    error of the store is returned as it is, so that a not-found error of
    the store is a not-found error for the caller; when the store gives an
    instance and the serializer refuses it, the serializer's error is
    returned. *)
Theorem Get_failure_returns_the_empty_string
    {context_Context metav1_ListOptions metav1_GetOptions : Type}
    (yaml_Marshal : unstructured.object -> list Byte.byte * error)
    (r : YamlReporter metav1_ListOptions metav1_GetOptions)
    (ctx : context_Context) (name namespace : string)
    (options : metav1_GetOptions) :
  (forall s e,
      Get yaml_Marshal r ctx name namespace options = Returned (s, Some e) ->
      s = "")
  /\
  (forall obj e,
      storeGet r name namespace options = Returned (obj, Some e) ->
      Get yaml_Marshal r ctx name namespace options = Returned ("", Some e) /\
      (apierrors.IsNotFound (Some e) = true ->
       exists err,
         Get yaml_Marshal r ctx name namespace options = Returned ("", err) /\
         apierrors.IsNotFound err = true))
  /\
  (forall obj out e,
      storeGet r name namespace options = Returned (Some obj, None) ->
      yaml_Marshal (unstructured.Object obj) = (out, Some e) ->
      Get yaml_Marshal r ctx name namespace options = Returned ("", Some e)).
Proof.
  split; [|split].
  - intros s e H.
    destruct (Get_returned_store yaml_Marshal _ _ _ _ _ _ H) as [resp S].
    rewrite (Get_of_store yaml_Marshal r ctx _ _ _ _ S) in H.
    destruct resp as [[obj|] [e'|]]; simpl in H; try discriminate H;
      try (now injection H as <- _).
    destruct (snd (yaml_Marshal (unstructured.Object obj)));
      [now injection H as <- _ | discriminate H].
  - intros obj e S.
    assert (Get yaml_Marshal r ctx name namespace options
            = Returned ("", Some e)) as G
      by now rewrite (Get_of_store yaml_Marshal r ctx _ _ _ _ S).
    split; [exact G|]. intros N. exists (Some e). now split.
  - intros obj out e S M.
    rewrite (Get_of_store yaml_Marshal r ctx _ _ _ _ S). simpl.
    now rewrite M.
Qed.

Lemma Get_failure_returns_the_empty_string_witness :
  (exists err,
      Get fixtures.marshal (fixtures.reporter [] (schema.mkGVR "" "v1" "pods"))
        tt "name-foo" "ns-foo" tt = Returned ("", err) /\
      apierrors.IsNotFound err = true)
  /\
  Get fixtures.marshal
    (fixtures.reporter fixtures.objectsWithRefused fixtures.pods)
    tt "name-bad" "ns-foo" tt
  = Returned ("", Some (errorString "json: unsupported type")).
Proof.
  split.
  - apply (proj2 (proj1 (proj2 (Get_failure_returns_the_empty_string
                                  fixtures.marshal
                                  (fixtures.reporter []
                                     (schema.mkGVR "" "v1" "pods"))
                                  tt "name-foo" "ns-foo" tt))
                    None
                    (StatusError metav1.StatusReasonNotFound
                       "pods name-foo not found")
                    eq_refl)).
    reflexivity.
  - apply (proj2 (proj2 (Get_failure_returns_the_empty_string fixtures.marshal
                           (fixtures.reporter fixtures.objectsWithRefused
                              fixtures.pods)
                           tt "name-bad" "ns-foo" tt))
             fixtures.unserializable []).
    + reflexivity.
    + reflexivity.
Defined.

(** ** The claim on the context *)

(** C9. [List] and [Get] do not look at their context: two calls that
    differ in the context only, on the same reporter (hence the same
    store), give the same outcome. *)
Theorem context_is_accepted_but_unused
    {context_Context metav1_ListOptions metav1_GetOptions : Type}
    (yaml_Marshal : unstructured.object -> list Byte.byte * error)
    (r : YamlReporter metav1_ListOptions metav1_GetOptions)
    (ctx1 ctx2 : context_Context) (name namespace : string)
    (listOptions : metav1_ListOptions) (getOptions : metav1_GetOptions) :
  List yaml_Marshal r ctx1 namespace listOptions
    = List yaml_Marshal r ctx2 namespace listOptions
  /\
  Get yaml_Marshal r ctx1 name namespace getOptions
    = Get yaml_Marshal r ctx2 name namespace getOptions.
Proof.
  split; reflexivity.
Qed.

(** * Further properties of the package *)

(** ** Construction: panics, errors and the order of options *)

Section ConstructionEdges.

Context {metav1_ListOptions metav1_GetOptions : Type}.

Local Abbreviation Option := (Option metav1_ListOptions metav1_GetOptions).
Local Abbreviation YamlReporter :=
  (YamlReporter metav1_ListOptions metav1_GetOptions).

Implicit Types (opts pre post : list (iface Option))
  (instance r : YamlReporter).

(** A nil element stops the loop with a panic, wherever it stands. *)
Lemma applyOptions_nil_panics opts instance :
  existsb isNil opts = true -> applyOptions opts instance = Panicked.
Proof.
  revert instance; induction opts as [|[o|] opts IH]; intros instance; simpl.
  - discriminate.
  - apply IH.
  - reflexivity.
Qed.

Lemma New_nil_panics opts :
  existsb isNil opts = true -> New opts = Panicked.
Proof.
  intros H. unfold New. now rewrite (applyOptions_nil_panics _ _ H).
Qed.

Lemma existsb_isNil_cases opts :
  existsb isNil opts = true \/ existsb isNil opts = false.
Proof. destruct (existsb isNil opts); auto. Qed.

End ConstructionEdges.

(** X1. An error that [New] returns is one of the package's two
    configuration errors; in particular no error of [New] classifies as
    not-found. *)
Theorem New_errors_are_the_two_sentinels
    {metav1_ListOptions metav1_GetOptions : Type}
    (opts : list (iface (Option metav1_ListOptions metav1_GetOptions)))
    (r : YamlReporter metav1_ListOptions metav1_GetOptions) (e : go_error) :
  New opts = Returned (r, Some e) ->
  (e = NoDynamicCliSetError \/ e = NoGroupVersionResourceSetError) /\
  apierrors.IsNotFound (Some e) = false.
Proof.
  destruct (applyOptions opts YamlReporter_zero) as [instance|] eqn:H;
    [|unfold New; rewrite H; discriminate].
  rewrite (New_after_options _ _ H).
  destruct (dynamicCli instance) as [[cli|]|], (gvrSchema instance) as [g|];
    intros [= <- <-] || discriminate 1; split; auto.
Qed.

Lemma New_errors_are_the_two_sentinels_witness :
  (NoGroupVersionResourceSetError = NoDynamicCliSetError \/
   NoGroupVersionResourceSetError = NoGroupVersionResourceSetError) /\
  apierrors.IsNotFound (Some NoGroupVersionResourceSetError) = false.
Proof.
  apply (New_errors_are_the_two_sentinels
           [WithDynamicClient (Some (fixtures.store fixtures.objects))]
           YamlReporter_zero NoGroupVersionResourceSetError).
  reflexivity.
Defined.

(** X2. [New] panics, rather than return an error, in these two
    situations: some element of the options is the nil interface; or a
    descriptor option is present and the last client option carries the nil
    interface (the configuration check sees the pointer set and lets it
    through, the call of [Resource] on the nil client panics). *)
Theorem New_panics_on_nil_option_or_nil_client
    {metav1_ListOptions metav1_GetOptions : Type}
    (opts : list (iface (Option metav1_ListOptions metav1_GetOptions))) :
  existsb isNil opts = true \/
  (existsb isGvrOption opts = true /\
   exists pre post,
     opts = (pre ++ WithDynamicClient None :: post)%list /\
     existsb isDynCliOption post = false) ->
  New opts = Panicked.
Proof.
  intros [N | (G & pre & post & E & Hpost)]; [now apply New_nil_panics|].
  destruct (existsb_isNil_cases opts) as [N|N]; [now apply New_nil_panics|].
  destruct (applyOptions_returns opts YamlReporter_zero N) as [instance H].
  rewrite (New_after_options _ _ H).
  pose proof (applyOptions_sets_gvrSchema _ _ _ G H) as Dg.
  rewrite E in H.
  rewrite (applyOptions_last_dynamicCli _ _ _ _ _ Hpost H).
  destruct (gvrSchema instance); [reflexivity | congruence].
Qed.

Lemma New_panics_on_nil_option_or_nil_client_witness :
  New [ WithDynamicClient (Some (fixtures.store fixtures.objects));
        WithGVRSchema fixtures.pods;
        WithDynamicClient None ] = Panicked.
Proof.
  apply (New_panics_on_nil_option_or_nil_client
           [ WithDynamicClient (Some (fixtures.store fixtures.objects));
             WithGVRSchema fixtures.pods;
             WithDynamicClient None ]).
  right. split; [reflexivity|].
  exists [ WithDynamicClient (Some (fixtures.store fixtures.objects));
           WithGVRSchema fixtures.pods ], [].
  split; reflexivity.
Defined.

(** X3. A client option and a descriptor option that stand next to each
    other can be exchanged: [New] gives the same outcome, whatever stands
    before and after them. *)
Theorem New_options_of_different_kinds_commute
    {metav1_ListOptions metav1_GetOptions : Type}
    (pre post : list (iface (Option metav1_ListOptions metav1_GetOptions)))
    (a b : iface (Option metav1_ListOptions metav1_GetOptions)) :
  isDynCliOption a = true ->
  isGvrOption b = true ->
  New (pre ++ a :: b :: post)%list = New (pre ++ b :: a :: post)%list.
Proof.
  intros Ha Hb.
  destruct a as [[d|g']|]; try discriminate Ha.
  destruct b as [[d'|g]|]; try discriminate Hb.
  unfold New. rewrite !applyOptions_app.
  destruct (applyOptions pre YamlReporter_zero) as [instance|]; reflexivity.
Qed.

Lemma New_options_of_different_kinds_commute_witness :
  New [ WithDynamicClient (Some (fixtures.store fixtures.objects));
        WithGVRSchema fixtures.pods ]
  = New [ WithGVRSchema fixtures.pods;
          WithDynamicClient (Some (fixtures.store fixtures.objects)) ].
Proof.
  apply (New_options_of_different_kinds_commute [] []
           (WithDynamicClient (Some (fixtures.store fixtures.objects)))
           (WithGVRSchema fixtures.pods));
    reflexivity.
Defined.

(** X4. The reporter [New] returns agrees with its error under the
    configuration check: the check accepts the reporter exactly when the
    error is nil. *)
Theorem New_result_revalidates
    {metav1_ListOptions metav1_GetOptions : Type}
    (opts : list (iface (Option metav1_ListOptions metav1_GetOptions)))
    (r : YamlReporter metav1_ListOptions metav1_GetOptions) (err : error) :
  New opts = Returned (r, err) ->
  (checkConfig r = None <-> err = None).
Proof.
  intros H. pose proof (New_returned_cases opts r err H) as C.
  destruct err as [e|].
  - subst r. split; discriminate.
  - destruct C as (cli & gvr & Ed & Eg & _). unfold checkConfig.
    rewrite Ed, Eg. split; reflexivity.
Qed.

Lemma New_result_revalidates_witness :
  checkConfig (fixtures.reporter fixtures.objects fixtures.pods) = None
  <-> @None go_error = None.
Proof.
  apply (New_result_revalidates
           (fixtures.reporterOptionsWithFakeClientAndGVR fixtures.pods
              fixtures.objects)).
  reflexivity.
Defined.

(** ** Read operations: panics, inversion and the origin of errors *)

Section ReadEdges.

Context {context_Context metav1_ListOptions metav1_GetOptions : Type}.
Variable yaml_Marshal : unstructured.object -> list Byte.byte * error.

Local Abbreviation YamlReporter :=
  (YamlReporter metav1_ListOptions metav1_GetOptions).

Implicit Types (r : YamlReporter) (ctx : context_Context)
  (items : list unstructured.Unstructured) (resources : list string).

(** A loop that ends without error has serialized every item and appended
    the blocks in order. *)
Lemma marshalItems_ok_inv items resources blocks :
  marshalItems yaml_Marshal items resources = (blocks, None) ->
  Forall (serializes yaml_Marshal) items /\
  blocks = Some (resources ++ map (serialized yaml_Marshal) items)%list.
Proof.
  revert resources; induction items as [|item items IH]; intros resources;
    simpl.
  - intros [= <-]. now rewrite app_nil_r.
  - unfold serialized at 1.
    destruct (yaml_Marshal (unstructured.Object item)) as [out [e|]] eqn:M;
      [discriminate|].
    intros H. destruct (IH _ H) as [F ->]. split.
    + constructor; [unfold serializes; now rewrite M | exact F].
    + simpl. now rewrite <- app_assoc.
Qed.

(** A loop that ends with an error stopped at an item the serializer
    refused with that error, all items before it having been accepted. *)
Lemma marshalItems_error_inv items resources blocks e :
  marshalItems yaml_Marshal items resources = (blocks, Some e) ->
  exists pre item post out,
    items = (pre ++ item :: post)%list /\
    Forall (serializes yaml_Marshal) pre /\
    yaml_Marshal (unstructured.Object item) = (out, Some e).
Proof.
  revert resources; induction items as [|item items IH]; intros resources;
    simpl.
  - discriminate.
  - destruct (yaml_Marshal (unstructured.Object item)) as [out [e'|]] eqn:M.
    + intros [= _ <-]. exists [], item, items, out. auto.
    + intros H. destruct (IH _ H) as (pre & it & post & o & -> & F & M').
      exists (item :: pre), it, post, o. repeat split; auto.
      constructor; [unfold serializes; now rewrite M | exact F].
Qed.

End ReadEdges.

(** X5. The reporter [New] returns together with an error cannot be read
    from: [List] and [Get] on it panic. *)
Theorem reads_on_a_failed_construction_panic
    {context_Context metav1_ListOptions metav1_GetOptions : Type}
    (yaml_Marshal : unstructured.object -> list Byte.byte * error)
    (opts : list (iface (Option metav1_ListOptions metav1_GetOptions)))
    (r : YamlReporter metav1_ListOptions metav1_GetOptions) (e : go_error)
    (ctx : context_Context) (name namespace : string)
    (listOptions : metav1_ListOptions) (getOptions : metav1_GetOptions) :
  New opts = Returned (r, Some e) ->
  List yaml_Marshal r ctx namespace listOptions = Panicked /\
  Get yaml_Marshal r ctx name namespace getOptions = Panicked.
Proof.
  intros H. pose proof (New_returned_cases opts r (Some e) H) as Z.
  simpl in Z. subst r. split; reflexivity.
Qed.

Lemma reads_on_a_failed_construction_panic_witness :
  List fixtures.marshal (@YamlReporter_zero unit unit) tt "ns-foo" tt = Panicked /\
  Get fixtures.marshal (@YamlReporter_zero unit unit) tt "name-foo" "ns-foo" tt
    = Panicked.
Proof.
  apply (reads_on_a_failed_construction_panic fixtures.marshal
           [WithGVRSchema fixtures.pods] YamlReporter_zero NoDynamicCliSetError).
  reflexivity.
Defined.

(** X6. [List] panics, rather than return an error, when the reporter has
    no handle, when the handle gives a nil interface for the namespace, and
    when the store answers with a nil list and a nil error. *)
Theorem List_panics_on_nil_handle_or_nil_answer
    {context_Context metav1_ListOptions metav1_GetOptions : Type}
    (yaml_Marshal : unstructured.object -> list Byte.byte * error)
    (r : YamlReporter metav1_ListOptions metav1_GetOptions)
    (ctx : context_Context) (namespace : string)
    (options : metav1_ListOptions) :
  resource r = None \/
  (exists nri, resource r = Some nri /\ Namespace nri namespace = None) \/
  storeList r namespace options = Returned (None, None) ->
  List yaml_Marshal r ctx namespace options = Panicked.
Proof.
  unfold storeList, List, namespaced.
  intros [Z | [(nri & Z & N) | S]].
  - rewrite Z. reflexivity.
  - rewrite Z. simpl. rewrite N. reflexivity.
  - destruct (resource r) as [nri|]; simpl in *; [|reflexivity].
    destruct (Namespace nri namespace) as [ri|]; simpl in *; [|reflexivity].
    injection S as S. rewrite S. reflexivity.
Qed.

Lemma List_panics_on_nil_handle_or_nil_answer_witness :
  List fixtures.marshal (@YamlReporter_zero unit unit) tt "ns-foo" tt = Panicked.
Proof.
  apply (List_panics_on_nil_handle_or_nil_answer fixtures.marshal
           (@YamlReporter_zero unit unit) tt "ns-foo" tt).
  left. reflexivity.
Defined.

(** X7. [Get] panics, rather than return an error, when the reporter has
    no handle, when the handle gives a nil interface for the namespace, and
    when the store answers with a nil object and a nil error. *)
Theorem Get_panics_on_nil_handle_or_nil_answer
    {context_Context metav1_ListOptions metav1_GetOptions : Type}
    (yaml_Marshal : unstructured.object -> list Byte.byte * error)
    (r : YamlReporter metav1_ListOptions metav1_GetOptions)
    (ctx : context_Context) (name namespace : string)
    (options : metav1_GetOptions) :
  resource r = None \/
  (exists nri, resource r = Some nri /\ Namespace nri namespace = None) \/
  storeGet r name namespace options = Returned (None, None) ->
  Get yaml_Marshal r ctx name namespace options = Panicked.
Proof.
  unfold storeGet, Get, namespaced.
  intros [Z | [(nri & Z & N) | S]].
  - rewrite Z. reflexivity.
  - rewrite Z. simpl. rewrite N. reflexivity.
  - destruct (resource r) as [nri|]; simpl in *; [|reflexivity].
    destruct (Namespace nri namespace) as [ri|]; simpl in *; [|reflexivity].
    injection S as S. rewrite S. reflexivity.
Qed.

Lemma Get_panics_on_nil_handle_or_nil_answer_witness :
  Get fixtures.marshal (@YamlReporter_zero unit unit) tt "name-foo" "ns-foo" tt
  = Panicked.
Proof.
  apply (Get_panics_on_nil_handle_or_nil_answer fixtures.marshal
           (@YamlReporter_zero unit unit) tt "name-foo" "ns-foo" tt).
  left. reflexivity.
Defined.

(** X8. Whenever [List] returns, the sequence is nil exactly when the error
    is not: it never returns blocks together with an error, nor a nil
    sequence without one. *)
Theorem List_nil_sequence_exactly_on_error
    {context_Context metav1_ListOptions metav1_GetOptions : Type}
    (yaml_Marshal : unstructured.object -> list Byte.byte * error)
    (r : YamlReporter metav1_ListOptions metav1_GetOptions)
    (ctx : context_Context) (namespace : string)
    (options : metav1_ListOptions)
    (blocks : iface (list string)) (err : error) :
  List yaml_Marshal r ctx namespace options = Returned (blocks, err) ->
  (blocks = None <-> err <> None).
Proof.
  intros H.
  destruct (List_returned_store yaml_Marshal _ _ _ _ _ H) as [resp S].
  rewrite (List_of_store yaml_Marshal r ctx _ _ _ S) in H.
  destruct resp as [[ul|] [e|]]; simpl in H; try discriminate H;
    try (injection H as <- <-; split; [discriminate | reflexivity]).
  injection H as H. destruct err as [e|].
  - apply marshalItems_error_nil in H. subst. split; [discriminate | reflexivity].
  - apply marshalItems_ok_inv in H. destruct H as [_ ->].
    split; [discriminate | congruence].
Qed.

Lemma List_nil_sequence_exactly_on_error_witness :
  @None (list string) = None
  <-> Some (errorString "json: unsupported type") <> None.
Proof.
  apply (List_nil_sequence_exactly_on_error fixtures.marshal
           (fixtures.reporter fixtures.objectsWithRefused fixtures.pods)
           tt "ns-foo" tt).
  reflexivity.
Defined.

(** X9. A sequence that [List] returns without error accounts for the whole
    answer of the store: the store answered with a list and no error, the
    serializer accepted every item, and the blocks are the serializations of
    the items, in order. *)
Theorem List_success_accounts_for_every_item
    {context_Context metav1_ListOptions metav1_GetOptions : Type}
    (yaml_Marshal : unstructured.object -> list Byte.byte * error)
    (r : YamlReporter metav1_ListOptions metav1_GetOptions)
    (ctx : context_Context) (namespace : string)
    (options : metav1_ListOptions) (blocks : iface (list string)) :
  List yaml_Marshal r ctx namespace options = Returned (blocks, None) ->
  exists ul,
    storeList r namespace options = Returned (Some ul, None) /\
    Forall (serializes yaml_Marshal) (unstructured.Items ul) /\
    blocks = Some (map (serialized yaml_Marshal) (unstructured.Items ul)).
Proof.
  intros H.
  destruct (List_returned_store yaml_Marshal _ _ _ _ _ H) as [resp S].
  rewrite (List_of_store yaml_Marshal r ctx _ _ _ S) in H.
  destruct resp as [[ul|] [e|]]; simpl in H; try discriminate H.
  injection H as H. apply marshalItems_ok_inv in H. destruct H as [F ->].
  exists ul. auto.
Qed.

Lemma List_success_accounts_for_every_item_witness :
  exists ul,
    storeList (fixtures.reporter fixtures.objects fixtures.pods) "ns-foo" tt
      = Returned (Some ul, None) /\
    Forall (serializes fixtures.marshal) (unstructured.Items ul) /\
    Some (map (serialized fixtures.marshal)
            [ fixtures.newUnstructured "group/version" "Pod" "ns-foo" "name-foo";
              fixtures.newUnstructured "group/version" "Pod" "ns-foo"
                "name-foo2" ])
    = Some (map (serialized fixtures.marshal) (unstructured.Items ul)).
Proof.
  apply (List_success_accounts_for_every_item fixtures.marshal
           (fixtures.reporter fixtures.objects fixtures.pods) tt "ns-foo" tt).
  reflexivity.
Defined.

(** X10. [List] makes no error of its own: an error it returns is the
    store's error, or the serializer's error on an item of the store's
    answer before which every item was accepted. *)
Theorem List_error_comes_from_a_collaborator
    {context_Context metav1_ListOptions metav1_GetOptions : Type}
    (yaml_Marshal : unstructured.object -> list Byte.byte * error)
    (r : YamlReporter metav1_ListOptions metav1_GetOptions)
    (ctx : context_Context) (namespace : string)
    (options : metav1_ListOptions)
    (blocks : iface (list string)) (e : go_error) :
  List yaml_Marshal r ctx namespace options = Returned (blocks, Some e) ->
  (exists ul, storeList r namespace options = Returned (ul, Some e)) \/
  (exists ul pre item post out,
      storeList r namespace options = Returned (Some ul, None) /\
      unstructured.Items ul = (pre ++ item :: post)%list /\
      Forall (serializes yaml_Marshal) pre /\
      yaml_Marshal (unstructured.Object item) = (out, Some e)).
Proof.
  intros H.
  destruct (List_returned_store yaml_Marshal _ _ _ _ _ H) as [resp S].
  rewrite (List_of_store yaml_Marshal r ctx _ _ _ S) in H.
  destruct resp as [[ul|] [e'|]]; simpl in H; try discriminate H;
    try (injection H as _ <-; left; eauto).
  injection H as H. right.
  destruct (marshalItems_error_inv yaml_Marshal _ _ _ _ H)
    as (pre & item & post & out & E & F & M).
  exists ul, pre, item, post, out. auto.
Qed.

Lemma List_error_comes_from_a_collaborator_witness :
  (exists ul,
      storeList (fixtures.reporter fixtures.objectsWithRefused fixtures.pods)
        "ns-foo" tt
      = Returned (ul, Some (errorString "json: unsupported type"))) \/
  (exists ul pre item post out,
      storeList (fixtures.reporter fixtures.objectsWithRefused fixtures.pods)
        "ns-foo" tt = Returned (Some ul, None) /\
      unstructured.Items ul = (pre ++ item :: post)%list /\
      Forall (serializes fixtures.marshal) pre /\
      fixtures.marshal (unstructured.Object item)
      = (out, Some (errorString "json: unsupported type"))).
Proof.
  apply (List_error_comes_from_a_collaborator fixtures.marshal
           (fixtures.reporter fixtures.objectsWithRefused fixtures.pods)
           tt "ns-foo" tt None).
  reflexivity.
Defined.

(** X11. A string that [Get] returns without error is the serialization of
    the object the store answered with: the store gave an object and no
    error, and the serializer accepted it. *)
Theorem Get_success_is_the_stores_object
    {context_Context metav1_ListOptions metav1_GetOptions : Type}
    (yaml_Marshal : unstructured.object -> list Byte.byte * error)
    (r : YamlReporter metav1_ListOptions metav1_GetOptions)
    (ctx : context_Context) (name namespace : string)
    (options : metav1_GetOptions) (s : string) :
  Get yaml_Marshal r ctx name namespace options = Returned (s, None) ->
  exists obj,
    storeGet r name namespace options = Returned (Some obj, None) /\
    serializes yaml_Marshal obj /\
    s = serialized yaml_Marshal obj.
Proof.
  intros H.
  destruct (Get_returned_store yaml_Marshal _ _ _ _ _ _ H) as [resp S].
  rewrite (Get_of_store yaml_Marshal r ctx _ _ _ _ S) in H.
  destruct resp as [[obj|] [e|]]; simpl in H; try discriminate H.
  exists obj. unfold serializes, serialized.
  destruct (snd (yaml_Marshal (unstructured.Object obj))); [discriminate H|].
  injection H as <-. auto.
Qed.

Lemma Get_success_is_the_stores_object_witness :
  exists obj,
    storeGet (fixtures.reporter fixtures.objects fixtures.pods)
      "name-foo2" "ns-foo" tt = Returned (Some obj, None) /\
    serializes fixtures.marshal obj /\
    serialized fixtures.marshal
      (fixtures.newUnstructured "group/version" "Pod" "ns-foo" "name-foo2")
    = serialized fixtures.marshal obj.
Proof.
  apply (Get_success_is_the_stores_object fixtures.marshal
           (fixtures.reporter fixtures.objects fixtures.pods)
           tt "name-foo2" "ns-foo" tt).
  reflexivity.
Defined.

(** X12. [Get] makes no error of its own: an error it returns is the
    store's error, or the serializer's error on the object the store
    answered with. *)
Theorem Get_error_comes_from_a_collaborator
    {context_Context metav1_ListOptions metav1_GetOptions : Type}
    (yaml_Marshal : unstructured.object -> list Byte.byte * error)
    (r : YamlReporter metav1_ListOptions metav1_GetOptions)
    (ctx : context_Context) (name namespace : string)
    (options : metav1_GetOptions) (s : string) (e : go_error) :
  Get yaml_Marshal r ctx name namespace options = Returned (s, Some e) ->
  (exists obj, storeGet r name namespace options = Returned (obj, Some e)) \/
  (exists obj out,
      storeGet r name namespace options = Returned (Some obj, None) /\
      yaml_Marshal (unstructured.Object obj) = (out, Some e)).
Proof.
  intros H.
  destruct (Get_returned_store yaml_Marshal _ _ _ _ _ _ H) as [resp S].
  rewrite (Get_of_store yaml_Marshal r ctx _ _ _ _ S) in H.
  destruct resp as [[obj|] [e'|]]; simpl in H; try discriminate H;
    try (injection H as _ <-; left; eauto).
  right. exists obj.
  destruct (yaml_Marshal (unstructured.Object obj)) as [out [e'|]];
    simpl in H; [|discriminate H].
  injection H as _ <-. eauto.
Qed.

Lemma Get_error_comes_from_a_collaborator_witness :
  (exists obj,
      storeGet (fixtures.reporter [] fixtures.pods) "name-foo" "ns-foo" tt
      = Returned (obj, Some (StatusError metav1.StatusReasonNotFound
                               "pods name-foo not found"))) \/
  (exists obj out,
      storeGet (fixtures.reporter [] fixtures.pods) "name-foo" "ns-foo" tt
      = Returned (Some obj, None) /\
      fixtures.marshal (unstructured.Object obj)
      = (out, Some (StatusError metav1.StatusReasonNotFound
                      "pods name-foo not found"))).
Proof.
  apply (Get_error_comes_from_a_collaborator fixtures.marshal
           (fixtures.reporter [] fixtures.pods) tt "name-foo" "ns-foo" tt "").
  reflexivity.
Defined.

(** X13. [Get] and [List] render an instance alike: when the object the
    store gives to [Get] is among the items it gives to [List], and the
    serializer accepts every item, both calls succeed and the string of
    [Get] is one of the blocks of [List]. *)
Theorem Get_string_is_a_block_of_List
    {context_Context metav1_ListOptions metav1_GetOptions : Type}
    (yaml_Marshal : unstructured.object -> list Byte.byte * error)
    (r : YamlReporter metav1_ListOptions metav1_GetOptions)
    (ctx ctx' : context_Context) (name namespace : string)
    (listOptions : metav1_ListOptions) (getOptions : metav1_GetOptions)
    (ul : unstructured.UnstructuredList) (obj : unstructured.Unstructured) :
  storeList r namespace listOptions = Returned (Some ul, None) ->
  storeGet r name namespace getOptions = Returned (Some obj, None) ->
  In obj (unstructured.Items ul) ->
  Forall (serializes yaml_Marshal) (unstructured.Items ul) ->
  exists blocks s,
    List yaml_Marshal r ctx namespace listOptions
      = Returned (Some blocks, None) /\
    Get yaml_Marshal r ctx' name namespace getOptions = Returned (s, None) /\
    In s blocks.
Proof.
  intros SL SG I F.
  exists (map (serialized yaml_Marshal) (unstructured.Items ul)),
         (serialized yaml_Marshal obj).
  rewrite (List_of_store yaml_Marshal r ctx _ _ _ SL),
          (Get_of_store yaml_Marshal r ctx' _ _ _ _ SG). simpl.
  rewrite (marshalItems_all _ _ _ F). simpl.
  pose proof (proj1 (Forall_forall _ _) F obj I) as So.
  unfold serializes in So. rewrite So.
  split; [reflexivity | split; [reflexivity | now apply in_map]].
Qed.

Lemma Get_string_is_a_block_of_List_witness :
  exists blocks s,
    List fixtures.marshal (fixtures.reporter fixtures.objects fixtures.pods)
      tt "ns-foo" tt = Returned (Some blocks, None) /\
    Get fixtures.marshal (fixtures.reporter fixtures.objects fixtures.pods)
      tt "name-foo2" "ns-foo" tt = Returned (s, None) /\
    In s blocks.
Proof.
  apply (Get_string_is_a_block_of_List fixtures.marshal
           (fixtures.reporter fixtures.objects fixtures.pods)
           tt tt "name-foo2" "ns-foo" tt tt
           (unstructured.mkUnstructuredList []
              [ fixtures.newUnstructured "group/version" "Pod" "ns-foo" "name-foo";
                fixtures.newUnstructured "group/version" "Pod" "ns-foo"
                  "name-foo2" ])
           (fixtures.newUnstructured "group/version" "Pod" "ns-foo" "name-foo2")).
  - reflexivity.
  - reflexivity.
  - right; left; reflexivity.
  - repeat constructor.
Defined.
